(** * Plausible-to-Fivetran connector: the incremental sync handler

    A shallow embedding of [syncWithPlausible] (src/index.js) and the
    properties of its pagination / checkpoint logic.

    Conventions of the embedding.
    - JavaScript values that the handler reads from the request and from the
      upstream reply are JSON scalars ([value]); numbers are integer valued
      (row counts, offsets), so [Z] arithmetic is the arithmetic of the
      source wherever doubles are exact.
    - Objects used as string-keyed maps ([state], [secrets], [meta]) are
      [gmap string value]; a missing key reads as [VUndefined].
    - The two awaited calls that can reject ([fetch], [response.json()]) are
      run in a small exception monad; [try { } catch] is [try_catch]. *)

From Stdlib Require Import ZArith String Ascii List.
From stdpp Require Import base option list sorting gmap strings pretty.

Local Open Scope string_scope.
Local Open Scope Z_scope.

(** ** JavaScript values and the coercions the handler relies on *)

Module JS.

Inductive number := NaN | Num (z : Z).

Inductive value :=
| VUndefined
| VNull
| VBool (b : bool)
| VNumber (n : number)
| VString (s : string).

Definition VInt (z : Z) : value := VNumber (Num z).

#[global] Instance number_eq_dec : EqDecision number.
Proof. solve_decision. Defined.
#[global] Instance value_eq_dec : EqDecision value.
Proof. solve_decision. Defined.

(** [ToBoolean]: what [if (v)], [!v], [v ? a : b] and [v || d] test. *)
Definition truthy (v : value) : bool :=
  match v with
  | VUndefined | VNull => false
  | VBool b => b
  | VNumber NaN => false
  | VNumber (Num z) => negb (z =? 0)
  | VString s => negb (String.eqb s "")
  end.

(** [v == null]: true exactly for [null] and [undefined]. *)
Definition loose_eq_null (v : value) : bool :=
  match v with
  | VUndefined | VNull => true
  | _ => false
  end.

Section Coercions.
(** [StringToNumber] of ECMAScript (numeric-literal parsing of a string
    operand), an external function of the runtime. *)
Variable StringToNumber : string → number.

Definition ToNumber (v : value) : number :=
  match v with
  | VUndefined => NaN
  | VNull => Num 0
  | VBool b => Num (if b then 1 else 0)
  | VNumber n => n
  | VString s => StringToNumber s
  end.

(** [v + k] for a numeric constant [k]: string concatenation when [v]
    is a string, numeric addition otherwise. *)
Definition add_const (v : value) (k : Z) : value :=
  match v with
  | VString s => VString (s +:+ pretty k)
  | _ => VNumber (match ToNumber v with
                  | Num z => Num (z + k)
                  | NaN => NaN
                  end)
  end.

(** [a > b]: code-unit order on two strings, numeric order otherwise;
    any comparison with [NaN] is false. *)
Definition gt (a b : value) : bool :=
  match a, b with
  | VString s, VString t => String.ltb t s
  | _, _ =>
      match ToNumber a, ToNumber b with
      | Num x, Num y => y <? x
      | _, _ => false
      end
  end.
End Coercions.

(** [o?.k] on an optional object: [undefined] when the object or the key
    is missing. *)
Definition get (o : option (gmap string value)) (k : string) : value :=
  match o with
  | Some m => default VUndefined (m !! k)
  | None => VUndefined
  end.

(** Thrown [Error] objects. *)
Record error := Error { name : string; message : string; stack : option string }.

(** [String(err)], i.e. [Error.prototype.toString]. *)
Definition error_to_string (e : error) : string :=
  if String.eqb (name e) "" then message e
  else if String.eqb (message e) "" then name e
  else name e +:+ ": " +:+ message e.

(** Computations that may throw: [await]ed calls that reject, and the
    [try { } catch (e) { }] that receives what they throw. *)
Inductive M (A : Type) : Type :=
| Return (a : A)
| Throw (e : error).
Arguments Return {A} a.
Arguments Throw {A} e.

#[global] Instance M_ret : MRet M := @Return.
#[global] Instance M_bind : MBind M := λ A B k m,
  match m with
  | Return a => k a
  | Throw e => Throw e
  end.

Definition try_catch {A} (m : M A) (handler : error → A) : A :=
  match m with
  | Return a => a
  | Throw e => handler e
  end.

End JS.

Import JS.

(** ** Library functions used by the handler *)

(** [Array.prototype.sort(compareFn)]: a stable sort; [compareFn a b <= 0]
    keeps [a] in front of [b]. *)
Section Sort.
Context {A : Type} (compareFn : A → A → Z).

(** [a] may stay in front of [b]. *)
Definition before (a b : A) : Prop := compareFn a b <= 0.

Fixpoint sort_insert (x : A) (l : list A) : list A :=
  match l with
  | [] => [x]
  | y :: l' => if compareFn x y <=? 0 then x :: y :: l' else y :: sort_insert x l'
  end.

Fixpoint sort (l : list A) : list A :=
  match l with
  | [] => []
  | x :: l' => sort_insert x (sort l')
  end.
End Sort.

(** [a.localeCompare(b)] on the fixed-width ISO-8601 UTC strings that
    [toISOString] emits (digits in fixed positions, same separators), where
    collation order is the order of the code units. *)
Definition localeCompare (a b : string) : Z :=
  match String.compare a b with
  | Lt => -1
  | Eq => 0
  | Gt => 1
  end.

(** [s.split(sep)] for a one-character separator. *)
Fixpoint split (sep : ascii) (s : string) : list string :=
  match s with
  | EmptyString => [EmptyString]
  | String c s' =>
      if Ascii.eqb c sep then EmptyString :: split sep s'
      else match split sep s' with
           | [] => [String c EmptyString]
           | piece :: pieces => String c piece :: pieces
           end
  end.

(** ** Requests, replies and the upstream API *)

(** The JSON body Fivetran posts. [agent], [customPayload] and [sync_id] are
    destructured by the handler but never read. *)
Record body := Body {
  state : option (gmap string value);
  secrets : option (gmap string value);
  setup_test : value
}.

(** [req.body || {}]: every field of the empty body is [undefined]. *)
Definition empty_body : body :=
  {| state := None; secrets := None; setup_test := VUndefined |}.

Inductive date_range :=
| Day                                     (* "day" *)
| All                                     (* "all" *)
| Between (from : value) (to : string).   (* [lastDateTime, now] *)

(** Body of the POST to https://plausible.io/api/v2/query. *)
Record query := Query {
  site_id : value;
  date_range_of : date_range;
  metrics : list string;
  dimensions : list string;
  limit : Z;
  offset_of : value;
  include_total_rows : bool
}.

Record fetch_request := FetchRequest {
  bearer : value;          (* Authorization: Bearer <plausibleApiKey> *)
  request_body : query
}.

(** One element of [results] in Plausible's reply. *)
Record result := Result {
  result_dimension : string;       (* dimensions: ["YYYY-MM-DD HH:mm"] *)
  result_metrics : list value      (* metrics: [visitors, visits, ...] *)
}.

Record plausible_data := PlausibleData {
  results : option (list result);
  meta : option (gmap string value)
}.

Record response := Response {
  ok : bool;
  status : Z;
  text : string;                   (* await response.text() *)
  json : M plausible_data          (* await response.json() *)
}.

(** One row of the [plausible_timeseries] table. *)
Record row := Row {
  timestamp : string;
  visitors : value;
  pageviews : value;
  bounce_rate : value;
  visit_duration : value;
  visits : value
}.

Record error_body := ErrorBody {
  errorMessage : string;
  errorType : string;
  stackTrace : option (list string)
}.

Record output := Output {
  out_state : gmap string value;
  insert : gmap string (list row);
  schema : option (gmap string (list string));   (* table -> primary_key *)
  out_hasMore : bool
}.

Inductive reply_json :=
| Failure (e : error_body)
| Success (o : output).

(** [res.status(code).json(payload)]. *)
Record reply := Reply { code : Z; payload : reply_json }.

(** ** The handler *)

Definition REPORTING_TIMEZONE : string := "Europe/Berlin".
Definition PAGE_SIZE : Z := 1000.

(** [err.name || "RuntimeError"] of the [catch] blocks. *)
Definition caught_type (err : error) : string :=
  if String.eqb (name err) "" then "RuntimeError" else name err.

Section Handler.
(** Runtime collaborators: numeric parsing of strings, and
    [moment.tz(text, format, zone).toISOString()], which yields a string on
    the well-formed hour buckets ("YYYY-MM-DD HH:mm") that Plausible sends. *)
Variable StringToNumber : string → number.
Variable moment_tz_toISOString : string → string → string → string.

(** Reply of step 2 when a secret is missing. *)
Definition configuration_error : reply :=
  {| code := 400;
     payload := Failure
       {| errorMessage := "Missing 'plausibleApiKey' or 'siteId' secret!";
          errorType := "ConfigurationError";
          stackTrace := None |} |}.

(** Reply when [response.ok] is false (both in the probe and in the sync). *)
Definition api_error (r : response) : reply :=
  {| code := 500;
     payload := Failure
       {| errorMessage :=
            "Plausible API request failed (status=" +:+ pretty (status r) +:+ ")";
          errorType := "PlausibleAPIError";
          stackTrace := Some [text r] |} |}.

(** Reply of both [catch] blocks. *)
Definition caught (err : error) : reply :=
  {| code := 500;
     payload := Failure
       {| errorMessage :=
            if String.eqb (message err) "" then error_to_string err else message err;
          errorType := caught_type err;
          stackTrace :=
            Some match stack err with
                 | Some s => if String.eqb s "" then [] else split "010"%char s
                 | None => []
                 end |} |}.

(** The fixed query of the connection test. *)
Definition setup_query (siteId : value) : query :=
  {| site_id := siteId;
     metrics := ["visitors"];
     date_range_of := Day;
     dimensions := ["time:day"];
     limit := 1;
     offset_of := VInt 0;
     include_total_rows := false |}.

(** Step 4: [range] and [offset] from the state of the last sync. *)
Definition range (st : option (gmap string value)) (now : string) : date_range :=
  let lastDateTime := get st "lastDateTime" in
  if truthy lastDateTime then Between lastDateTime now else All.

Definition offset (st : option (gmap string value)) : value :=
  let lastOffset := get st "lastOffset" in
  if loose_eq_null lastOffset then VInt 0
  else add_const StringToNumber lastOffset PAGE_SIZE.

(** Step 5. *)
Definition plausibleQuery (siteId : value) (st : option (gmap string value))
    (now : string) : query :=
  {| site_id := siteId;
     date_range_of := range st now;
     metrics := ["visitors"; "visits"; "pageviews"; "bounce_rate"; "visit_duration"];
     dimensions := ["time:hour"];
     limit := PAGE_SIZE;
     offset_of := offset st;
     include_total_rows := true |}.

(** Step 7: one output row per result, in order. The metrics array is
    destructured positionally as
    [visitors, visits, pageviews, bounce_rate, visit_duration]. *)
Definition to_row (r : result) : row :=
  let metric (i : nat) := default VUndefined (result_metrics r !! i) in
  {| timestamp :=
       moment_tz_toISOString (result_dimension r) "YYYY-MM-DD HH:mm" REPORTING_TIMEZONE;
     visitors := metric 0%nat;
     pageviews := metric 2%nat;
     bounce_rate := metric 3%nat;
     visit_duration := metric 4%nat;
     visits := metric 1%nat |}.

Definition rows (rs : list result) : list row := to_row <$> rs.

(** [totalRows > offset + PAGE_SIZE]. *)
Definition hasMore (totalRows off : value) : bool :=
  gt StringToNumber totalRows (add_const StringToNumber off PAGE_SIZE).

(** [sortedByDate[sortedByDate.length - 1].timestamp]. *)
Definition sortedByDate (rws : list row) : list row :=
  sort (λ a b, localeCompare (timestamp a) (timestamp b)) rws.

Definition maxDateTime (rws : list row) : option string :=
  timestamp <$> last (sortedByDate rws).

(** Step 8. *)
Definition newState (st : option (gmap string value)) (off : value)
    (rws : list row) (more : bool) : gmap string value :=
  let copy := default ∅ st in                                (* { ...state } *)
  if more then <["lastOffset" := off]> copy
  else if (0 <? length rws)%nat then
    match maxDateTime rws with
    | Some m => delete "lastOffset" (<["lastDateTime" := VString m]> copy)
    | None => copy     (* not reached: the sorted copy is as long as rows *)
    end
  else copy.

(** Step 9. *)
Definition sync_output (st : option (gmap string value)) (off totalRows : value)
    (rws : list row) : output :=
  let more := hasMore totalRows off in
  {| out_state := newState st off rws more;
     insert := {[ "plausible_timeseries" := rws ]};
     schema := Some {[ "plausible_timeseries" := ["timestamp"] ]};
     out_hasMore := more |}.

(** [functions.http("syncWithPlausible", async (req, res) => ...)]:
    [now] is [new Date().toISOString()], [fetch] the upstream. *)
Definition syncWithPlausible (now : string) (fetch : fetch_request → M response)
    (req_body : option body) : reply :=
  try_catch
    (let b := default empty_body req_body in
     let plausibleApiKey := get (secrets b) "plausibleApiKey" in
     let siteId := get (secrets b) "siteId" in
     if negb (truthy plausibleApiKey) || negb (truthy siteId) then
       mret configuration_error
     else if truthy (setup_test b) then
       mret (try_catch
               (resp ← fetch {| bearer := plausibleApiKey;
                                 request_body := setup_query siteId |};
                if negb (ok resp) then mret (api_error resp)
                else mret {| code := 200;
                             payload := Success
                               {| out_state := default ∅ (state b);   (* state || {} *)
                                  insert := ∅;
                                  schema := None;
                                  out_hasMore := false |} |})
               caught)
     else
       let off := offset (state b) in
       resp ← fetch {| bearer := plausibleApiKey;
                       request_body := plausibleQuery siteId (state b) now |};
       if negb (ok resp) then mret (api_error resp)
       else
         plausibleData ← json resp;
         let rs := default [] (results plausibleData) in
         let totalRows := get (meta plausibleData) "total_rows" in
         mret {| code := 200;
                 payload := Success (sync_output (state b) off totalRows (rows rs)) |})
    caught.

End Handler.

(** ** Invocations

    Vocabulary for statements about one call of the handler. *)

(** Step 2's guard [!plausibleApiKey || !siteId]. *)
Definition missing_secret (b : body) : bool :=
  negb (truthy (get (secrets b) "plausibleApiKey"))
  || negb (truthy (get (secrets b) "siteId")).

(** The request of the connection test (step 3). *)
Definition setup_request (b : body) : fetch_request :=
  {| bearer := get (secrets b) "plausibleApiKey";
     request_body := setup_query (get (secrets b) "siteId") |}.

Section Invocations.
Variable StringToNumber : string → number.

(** The request of a sync (steps 5 and 6). *)
Definition sync_request (b : body) (now : string) : fetch_request :=
  {| bearer := get (secrets b) "plausibleApiKey";
     request_body :=
       plausibleQuery StringToNumber (get (secrets b) "siteId") (state b) now |}.

(** The call is a sync (secrets present, not a connection test) and the
    upstream answered it with a success status and the page [data]. *)
Definition fetched_page (now : string) (fetch : fetch_request → M response)
    (b : body) (data : plausible_data) : Prop :=
  missing_secret b = false ∧
  truthy (setup_test b) = false ∧
  ∃ resp, fetch (sync_request b now) = Return resp
          ∧ ok resp = true ∧ json resp = Return data.
End Invocations.

(** The success payload of a reply, if it has one. *)
Definition reply_output (r : reply) : option output :=
  match payload r with
  | Success o => Some o
  | Failure _ => None
  end.

(** The one request a call with both secrets sends: the fixed query of the
    connection test, or the query of the sync. *)
Definition issued_request (StringToNumber : string → number) (b : body)
    (now : string) : fetch_request :=
  if truthy (setup_test b) then setup_request b
  else sync_request StringToNumber b now.

(** The body of the caller's next call: same secrets and mode, with the
    state a reply handed back. *)
Definition next_call (b : body) (st : gmap string value) : body :=
  {| state := Some st; secrets := secrets b; setup_test := setup_test b |}.

(** The state after a run of replies that all said [hasMore], one reply per
    page of [pages], each call sending back the state of the reply before. *)
Fixpoint continued (StringToNumber : string → number)
    (st : option (gmap string value)) (pages : list (list row))
    : option (gmap string value) :=
  match pages with
  | [] => st
  | rws :: pages' =>
      continued StringToNumber
        (Some (newState st (offset StringToNumber st) rws true)) pages'
  end.

(** The line separator of [err.stack.split("\n")]. *)
Definition newline : ascii := "010"%char.

(** The error kinds of the published reply contract. *)
Definition documented_error_types : list string :=
  ["ConfigurationError"; "UpstreamAPIError"; "RuntimeError"].

(** ** Concrete inputs used by the examples below *)

Module Sample.

(** Stand-ins for the runtime collaborators. *)
Definition StringToNumber (s : string) : number := NaN.
Definition moment_tz_toISOString (text format zone : string) : string :=
  text +:+ ":00.000Z".

Definition now : string := "2024-01-03T00:00:00.000Z".

Definition credentials : gmap string value :=
  {[ "plausibleApiKey" := VString "secret-key"; "siteId" := VString "example.com" ]}.

Definition sync_body (st : option (gmap string value)) : body :=
  {| state := st; secrets := Some credentials; setup_test := VBool false |}.

Definition probe_body (st : option (gmap string value)) : body :=
  {| state := st; secrets := Some credentials; setup_test := VBool true |}.

Definition hour (dim : string) : result :=
  {| result_dimension := dim;
     result_metrics := [VInt 12; VInt 15; VInt 40; VInt 50; VInt 73] |}.

Definition page (dims : list string) (mt : option (gmap string value)) : plausible_data :=
  {| results := Some (hour <$> dims); meta := mt |}.

Definition total (n : Z) : option (gmap string value) :=
  Some {[ "total_rows" := VInt n ]}.

(** An upstream that answers every request with status 200 and [data]. *)
Definition serves (data : plausible_data) (_ : fetch_request) : M response :=
  Return {| ok := true; status := 200; text := ""; json := Return data |}.

(** An upstream that answers every request with a failure status. *)
Definition refuses (st : Z) (txt : string) (_ : fetch_request) : M response :=
  Return {| ok := false; status := st; text := txt;
            json := Throw (Error "SyntaxError" "Unexpected token" None) |}.

(** An upstream that cannot be reached: [fetch] rejects. *)
Definition unreachable (_ : fetch_request) : M response :=
  Throw (Error "TypeError" "fetch failed" None).

(** The same two buckets, oldest first. *)
Definition two_hours_ascending : list string :=
  ["2024-01-02 04:00"; "2024-01-02 05:00"].

Definition two_hours : list string := ["2024-01-02 05:00"; "2024-01-02 04:00"].

(** A full page: [PAGE_SIZE] results. *)
Definition full_page : list string := replicate 1000 "2024-01-01 00:00".

End Sample.

(** * Properties *)

(** ** The sort and the order of timestamps *)

Section SortFacts.
Context {A : Type} (compareFn : A → A → Z).

Hypothesis before_total : ∀ a b, before compareFn a b ∨ before compareFn b a.
Hypothesis before_trans : ∀ a b c,
  before compareFn a b → before compareFn b c → before compareFn a c.

Lemma sort_insert_Permutation x l : sort_insert compareFn x l ≡ₚ x :: l.
Proof.
  induction l as [|y l IH]; simpl; [done|].
  destruct (compareFn x y <=? 0); [done|].
  rewrite IH. apply Permutation_swap.
Qed.

Lemma sort_Permutation l : sort compareFn l ≡ₚ l.
Proof.
  induction l as [|x l IH]; simpl; [done|].
  by rewrite sort_insert_Permutation, IH.
Qed.

Lemma sort_length l : length (sort compareFn l) = length l.
Proof. by rewrite sort_Permutation. Qed.

Lemma sort_insert_Sorted x l :
  Sorted (before compareFn) l → Sorted (before compareFn) (sort_insert compareFn x l).
Proof.
  induction 1 as [|y l Hl IH Hhd]; simpl.
  - repeat constructor.
  - destruct (Z.leb_spec (compareFn x y) 0) as [Hxy|Hxy].
    + repeat constructor; done.
    + assert (before compareFn y x) as Hyx.
      { destruct (before_total x y) as [Hb|Hb]; [unfold before in Hb; lia|done]. }
      constructor; [done|].
      destruct Hhd as [|z l' Hyz]; simpl.
      * by constructor.
      * destruct (compareFn x z <=? 0); by constructor.
Qed.

Lemma sort_Sorted l : Sorted (before compareFn) (sort compareFn l).
Proof.
  induction l as [|x l IH]; simpl; [constructor|].
  by apply sort_insert_Sorted.
Qed.

(** The last element of the sorted copy is a greatest element of the
    array. *)
Lemma sort_last_greatest l m :
  last (sort compareFn l) = Some m →
  m ∈ l ∧ ∀ x, x ∈ l → before compareFn x m.
Proof.
  intros Hlast.
  assert (Transitive (before compareFn)) as Htrans by exact before_trans.
  pose proof (Sorted_StronglySorted (before compareFn) _ (sort_Sorted l)) as Hsorted.
  apply last_Some in Hlast as [front Hfront].
  rewrite Hfront in Hsorted.
  destruct (proj1 (StronglySorted_app _ _ _) Hsorted) as (Hle & _ & _).
  assert (∀ x, x ∈ (front ++ [m])%list → before compareFn x m) as Hall.
  { intros x [Hx|Hx]%elem_of_app.
    - apply Hle; [done|]. apply list_elem_of_singleton. done.
    - apply list_elem_of_singleton in Hx as ->.
      by destruct (before_total m m). }
  rewrite <- Hfront in Hall.
  split.
  - rewrite <- (sort_Permutation l), Hfront.
    apply elem_of_app. right. by apply list_elem_of_singleton.
  - intros x Hx. apply Hall. by rewrite sort_Permutation.
Qed.

Lemma sort_last_is_Some l : l ≠ [] → is_Some (last (sort compareFn l)).
Proof.
  intros Hl. apply last_is_Some. intros Hnil.
  apply Hl, length_zero_iff_nil. by rewrite <- sort_length, Hnil.
Qed.
End SortFacts.

Lemma string_leb_trans (a b c : string) :
  String.leb a b = true → String.leb b c = true → String.leb a c = true.
Proof.
  revert b c. induction a as [|x a IH]; intros [|y b] [|z c];
    unfold String.leb; simpl; try done.
  unfold Ascii.compare. intros Hab Hbc.
  destruct (N.compare_spec (N_of_ascii x) (N_of_ascii y)),
           (N.compare_spec (N_of_ascii y) (N_of_ascii z)),
           (N.compare_spec (N_of_ascii x) (N_of_ascii z));
    try done; try lia.
  by apply (IH b c).
Qed.

Lemma localeCompare_leb (a b : string) :
  localeCompare a b <= 0 ↔ String.leb a b = true.
Proof.
  unfold localeCompare, String.leb.
  destruct (String.compare a b); split; intros; try done; lia.
Qed.

(** ** The path of a successful sync *)

Section HandlerFacts.
Variable StringToNumber : string → number.
Variable moment_tz_toISOString : string → string → string → string.

Local Abbreviation handler := (syncWithPlausible StringToNumber moment_tz_toISOString).
Local Abbreviation requested := (offset StringToNumber).

(** A fetched page is answered with status 200 and the output of step 9. *)
Lemma syncWithPlausible_fetched now fetch b data :
  fetched_page StringToNumber now fetch b data →
  handler now fetch (Some b) =
    {| code := 200;
       payload := Success
         (sync_output StringToNumber (state b) (requested (state b))
            (get (meta data) "total_rows")
            (rows moment_tz_toISOString (default [] (results data)))) |}.
Proof.
  intros (Hsecrets & Hsetup & resp & Hfetch & Hok & Hjson).
  unfold syncWithPlausible, missing_secret, sync_request in *. simpl.
  rewrite Hsecrets, Hsetup, Hfetch. simpl.
  rewrite Hok, Hjson. done.
Qed.

Lemma hasMore_numeric (t o : Z) :
  hasMore StringToNumber (VInt t) (VInt o) = bool_decide (t > o + PAGE_SIZE).
Proof.
  unfold hasMore, gt, add_const. simpl.
  case_bool_decide; [apply Z.ltb_lt|apply Z.ltb_ge]; lia.
Qed.
Lemma hasMore_false_sync_output st off totalRows rws :
  hasMore StringToNumber totalRows off = false →
  rws ≠ [] →
  ∃ m, maxDateTime rws = Some m
       ∧ sync_output StringToNumber st off totalRows rws =
           {| out_state := delete "lastOffset" (<["lastDateTime" := VString m]> (default ∅ st));
              insert := {[ "plausible_timeseries" := rws ]};
              schema := Some {[ "plausible_timeseries" := ["timestamp"] ]};
              out_hasMore := false |}.
Proof.
  intros Hmore Hrows.
  destruct (sort_last_is_Some (λ a b, localeCompare (timestamp a) (timestamp b))
              rws Hrows) as [r Hr].
  exists (timestamp r). unfold sync_output, newState, maxDateTime, sortedByDate.
  rewrite Hmore, Hr. simpl.
  destruct rws; [done|]. done.
Qed.

Lemma maxDateTime_greatest rws m :
  maxDateTime rws = Some m →
  m ∈ timestamp <$> rws ∧ ∀ ts, ts ∈ timestamp <$> rws → String.leb ts m = true.
Proof.
  unfold maxDateTime, sortedByDate. intros Hmax.
  destruct (last _) as [r|] eqn:Hlast; [|done].
  injection Hmax as <-.
  apply sort_last_greatest in Hlast as [Hin Hle].
  - split.
    + by apply list_elem_of_fmap_2.
    + intros ts (r' & -> & Hr')%list_elem_of_fmap.
      apply localeCompare_leb, Hle, Hr'.
  - intros a c. unfold before. rewrite !localeCompare_leb. apply String.leb_total.
  - intros a c d. unfold before. rewrite !localeCompare_leb. apply string_leb_trans.
Qed.

(** Where step 8 leaves [lastOffset]: written when more rows remain,
    deleted when the window ends on a page with rows, and left as it came in
    when the window ends on an empty page. *)
Lemma newState_lastOffset st off rws more :
  newState st off rws more !! "lastOffset" =
    if more then Some off
    else if bool_decide (rws = []) then default ∅ st !! "lastOffset"
    else None.
Proof.
  unfold newState. destruct more; [by rewrite lookup_insert_eq|].
  destruct rws as [|r rws]; [done|].
  rewrite bool_decide_eq_false_2 by done. simpl length.
  destruct (sort_last_is_Some (λ a c, localeCompare (timestamp a) (timestamp c))
              (r :: rws)) as [r' Hr']; [done|].
  unfold maxDateTime, sortedByDate. rewrite Hr'. simpl.
  by rewrite lookup_delete_eq.
Qed.

(** ** Exhaustion test *)

(** C1. For a numeric [total_rows], the reply's [hasMore] is the value of
    [totalRows > offset + PAGE_SIZE] at the offset that was requested; for
    a numeric offset [o] that is the strict inequality
    [totalRows > o + PAGE_SIZE], so [hasMore] is [false] when [total_rows]
    is exactly [o + PAGE_SIZE]. *)
Theorem hasMore_strict_threshold now fetch b data (t : Z) :
  fetched_page StringToNumber now fetch b data →
  get (meta data) "total_rows" = VInt t →
  ∃ out, handler now fetch (Some b) = {| code := 200; payload := Success out |}
         ∧ out_hasMore out =
             gt StringToNumber (VInt t)
               (add_const StringToNumber
                  (offset_of (request_body (sync_request StringToNumber b now)))
                  PAGE_SIZE)
         ∧ ∀ o : Z,
             offset_of (request_body (sync_request StringToNumber b now)) = VInt o →
             out_hasMore out = bool_decide (t > o + PAGE_SIZE)
             ∧ (t = o + PAGE_SIZE → out_hasMore out = false).
Proof.
  intros Hpage Htotal.
  eexists. split; [by apply syncWithPlausible_fetched|].
  simpl. rewrite Htotal. split; [done|].
  intros o ->. rewrite hasMore_numeric.
  split; [done|]. intros ->. apply bool_decide_eq_false. lia.
Qed.

(** ** Checkpoint of a window that is not finished *)

(** C2. When [total_rows] strictly exceeds [offset + PAGE_SIZE], the reply
    has [hasMore = true], its state records the offset that was requested
    under [lastOffset], and [lastDateTime] (like every other key of the
    incoming state) is unchanged. *)
Theorem more_rows_keep_window now fetch b data (t o : Z) :
  fetched_page StringToNumber now fetch b data →
  get (meta data) "total_rows" = VInt t →
  offset_of (request_body (sync_request StringToNumber b now)) = VInt o →
  t > o + PAGE_SIZE →
  ∃ out, handler now fetch (Some b) = {| code := 200; payload := Success out |}
         ∧ out_hasMore out = true
         ∧ out_state out !! "lastOffset" = Some (VInt o)
         ∧ out_state out !! "lastDateTime" = default ∅ (state b) !! "lastDateTime"
         ∧ ∀ k, k ≠ "lastOffset" → out_state out !! k = default ∅ (state b) !! k.
Proof.
  intros Hpage Htotal Hoff Hgt. simpl in Hoff.
  eexists. split; [by apply syncWithPlausible_fetched|].
  simpl. unfold newState. rewrite Htotal, Hoff, hasMore_numeric.
  rewrite bool_decide_eq_true_2 by done.
  split_and!; [done|by rewrite lookup_insert_eq|by rewrite lookup_insert_ne|].
  intros k Hk. by rewrite lookup_insert_ne.
Qed.

(** ** Checkpoint of a finished window *)

(** C3. When the page is not empty and [total_rows <= offset + PAGE_SIZE],
    the reply has [hasMore = false], [lastDateTime] is the greatest
    timestamp among the returned rows (greatest in the order of ISO-8601
    strings), and the key [lastOffset] is absent from the new state. *)
Theorem last_page_commits_watermark now fetch b data (t o : Z) :
  fetched_page StringToNumber now fetch b data →
  get (meta data) "total_rows" = VInt t →
  offset_of (request_body (sync_request StringToNumber b now)) = VInt o →
  t <= o + PAGE_SIZE →
  default [] (results data) ≠ [] →
  ∃ out m, handler now fetch (Some b) = {| code := 200; payload := Success out |}
           ∧ out_hasMore out = false
           ∧ out_state out !! "lastDateTime" = Some (VString m)
           ∧ m ∈ timestamp <$> insert out !!! "plausible_timeseries"
           ∧ (∀ ts, ts ∈ timestamp <$> insert out !!! "plausible_timeseries" →
                    String.leb ts m = true)
           ∧ out_state out !! "lastOffset" = None.
Proof.
  intros Hpage Htotal Hoff Hle Hrows. simpl in Hoff.
  rewrite (syncWithPlausible_fetched _ _ _ _ Hpage), Htotal, Hoff.
  destruct (hasMore_false_sync_output (state b) (VInt o) (VInt t)
              (rows moment_tz_toISOString (default [] (results data))))
    as (m & Hmax & ->).
  { rewrite hasMore_numeric. apply bool_decide_eq_false. lia. }
  { unfold rows. by destruct (default [] (results data)). }
  apply maxDateTime_greatest in Hmax as [Hin Hgreatest].
  eexists _, m. split; [done|]. simpl.
  rewrite lookup_total_singleton.
  split_and!; try done.
  - by rewrite lookup_delete_ne, lookup_insert_eq.
  - by rewrite lookup_delete_eq.
Qed.

End HandlerFacts.

(** ** The request of a sync: offset and window *)

Section PlannerFacts.
Variable StringToNumber : string → number.

Local Abbreviation request := (sync_request StringToNumber).

(** C4. The requested offset is [0] when the state has no [lastOffset], and
    [k + PAGE_SIZE] when [lastOffset] is the number [k]; [k = 0] is a real
    offset and yields [PAGE_SIZE]. *)
Theorem offset_from_lastOffset b now (pending : option Z) :
  default ∅ (state b) !! "lastOffset" = VInt <$> pending →
  offset_of (request_body (request b now)) =
    VInt match pending with
         | None => 0
         | Some k => k + PAGE_SIZE
         end
  ∧ (pending = Some 0 → offset_of (request_body (request b now)) = VInt PAGE_SIZE).
Proof.
  intros Hpending. simpl. unfold offset, get.
  assert (default VUndefined (default ∅ (state b) !! "lastOffset")
          = default VUndefined (VInt <$> pending)) as Hget by by rewrite Hpending.
  destruct (state b) as [st|]; simpl in *.
  - rewrite Hget. destruct pending as [k|]; simpl; [|done].
    split; [done|]. by intros [= ->].
  - rewrite lookup_empty in Hpending. by destruct pending.
Qed.

(** C5. The requested window is the sentinel ["all"] when the state has no
    [lastDateTime], and the pair [[lastDateTime, now]] when [lastDateTime]
    is a timestamp. *)
Theorem range_from_lastDateTime b now (watermark : option string) :
  default ∅ (state b) !! "lastDateTime" = VString <$> watermark →
  watermark ≠ Some "" →
  date_range_of (request_body (request b now)) =
    match watermark with
    | None => All
    | Some ts => Between (VString ts) now
    end.
Proof.
  intros Hwatermark Hts. simpl. unfold range, get.
  assert (default VUndefined (default ∅ (state b) !! "lastDateTime")
          = default VUndefined (VString <$> watermark)) as Hget by by rewrite Hwatermark.
  destruct (state b) as [st|]; simpl in *.
  - rewrite Hget. destruct watermark as [ts|]; simpl; [|done].
    destruct (String.eqb_spec ts ""); [by subst|done].
  - rewrite lookup_empty in Hwatermark. by destruct watermark.
Qed.

(** C10. Presence of [lastDateTime] is decided by truthiness: a state whose
    [lastDateTime] is present but falsy (the empty string, for one) gets the
    window ["all"]. Presence of [lastOffset] is decided by [== null]: the
    value [0] is a present offset and the request asks for [PAGE_SIZE]. *)
Theorem presence_tests b now :
  (∀ v, default ∅ (state b) !! "lastDateTime" = Some v → truthy v = false →
        date_range_of (request_body (request b now)) = All)
  ∧ truthy (VString "") = false
  ∧ (∀ w, default ∅ (state b) !! "lastOffset" = Some w →
          offset_of (request_body (request b now)) =
            if loose_eq_null w then VInt 0 else add_const StringToNumber w PAGE_SIZE)
  ∧ (default ∅ (state b) !! "lastOffset" = Some (VInt 0) →
     offset_of (request_body (request b now)) = VInt PAGE_SIZE).
Proof.
  assert (∀ k v, default ∅ (state b) !! k = Some v → get (state b) k = v) as Hget.
  { intros k v. unfold get. destruct (state b); simpl; [by intros ->|].
    by rewrite lookup_empty. }
  split_and!; simpl; unfold range, offset.
  - intros v Hv Hfalsy. by rewrite (Hget _ _ Hv), Hfalsy.
  - done.
  - intros w Hw. by rewrite (Hget _ _ Hw).
  - intros Hzero. by rewrite (Hget _ _ Hzero).
Qed.

End PlannerFacts.

(** ** Connection test, degenerate pages and error replies *)

Section ReplyFacts.
Variable StringToNumber : string → number.
Variable moment_tz_toISOString : string → string → string → string.

Local Abbreviation handler := (syncWithPlausible StringToNumber moment_tz_toISOString).

(** C9. A connection test with both secrets present and a success status
    from the upstream replies with the caller's state as it came in (the
    empty object when the caller sent none), an empty [insert] and
    [hasMore = false]. *)
Theorem setup_test_echoes_state now fetch b resp :
  missing_secret b = false →
  truthy (setup_test b) = true →
  fetch (setup_request b) = Return resp →
  ok resp = true →
  ∃ out, handler now fetch (Some b) = {| code := 200; payload := Success out |}
         ∧ (∀ st, state b = Some st → out_state out = st)
         ∧ out_state out = default ∅ (state b)
         ∧ insert out = ∅
         ∧ schema out = None
         ∧ out_hasMore out = false.
Proof.
  intros Hsecrets Hsetup Hfetch Hok.
  unfold syncWithPlausible, missing_secret, setup_request in *. simpl.
  rewrite Hsecrets, Hsetup, Hfetch. simpl. rewrite Hok. simpl.
  eexists. split; [done|]. simpl. split_and!; try done.
  by intros st ->.
Qed.

Lemma gt_NaN_number (totalRows v : value) :
  ToNumber StringToNumber totalRows = NaN →
  (∀ s, v ≠ VString s) →
  gt StringToNumber totalRows v = false.
Proof.
  intros Hnan Hv. unfold gt. rewrite Hnan.
  destruct totalRows, v; try done. by destruct (Hv s0).
Qed.

(** C7 (as the code has it). When [total_rows] is missing, or is any value
    whose numeric conversion is [NaN], and the requested offset is a number,
    the reply has [hasMore = false] whether or not the page is empty: an
    empty page returns the incoming state unchanged, a page with rows sets
    [lastDateTime] to the greatest row timestamp and removes [lastOffset]. *)
Theorem missing_total_rows_ends_window now fetch b data (o : Z) :
  fetched_page StringToNumber now fetch b data →
  ToNumber StringToNumber (get (meta data) "total_rows") = NaN →
  offset_of (request_body (sync_request StringToNumber b now)) = VInt o →
  ∃ out, handler now fetch (Some b) = {| code := 200; payload := Success out |}
         ∧ out_hasMore out = false
         ∧ (default [] (results data) = [] → out_state out = default ∅ (state b))
         ∧ (default [] (results data) ≠ [] →
            ∃ m, out_state out !! "lastDateTime" = Some (VString m)
                 ∧ m ∈ timestamp <$> insert out !!! "plausible_timeseries"
                 ∧ (∀ ts, ts ∈ timestamp <$> insert out !!! "plausible_timeseries" →
                          String.leb ts m = true)
                 ∧ out_state out !! "lastOffset" = None).
Proof.
  intros Hpage Hnan Hoff. simpl in Hoff.
  rewrite (syncWithPlausible_fetched _ _ _ _ _ _ Hpage), Hoff.
  assert (hasMore StringToNumber (get (meta data) "total_rows") (VInt o) = false)
    as Hmore by (by apply gt_NaN_number).
  eexists. split; [done|]. split_and!.
  - done.
  - intros ->. simpl. unfold newState. by rewrite Hmore.
  - intros Hrows.
    destruct (hasMore_false_sync_output StringToNumber (state b) (VInt o)
                (get (meta data) "total_rows")
                (rows moment_tz_toISOString (default [] (results data))) Hmore)
      as (m & Hmax & ->).
    { unfold rows. by destruct (default [] (results data)). }
    apply maxDateTime_greatest in Hmax as [Hin Hgreatest].
    exists m. simpl. rewrite lookup_total_singleton. split_and!; try done.
    + by rewrite lookup_delete_ne, lookup_insert_eq.
    + by rewrite lookup_delete_eq.
Qed.

(** C8 (as the code has it). Every error reply has one of three causes, and
    its [errorType] follows the cause: ["ConfigurationError"] when a secret
    is missing; ["PlausibleAPIError"] when the upstream answered with a
    failure status; and, when [fetch] or [response.json()] threw, the name
    of the thrown error, or ["RuntimeError"] if it has none. A missing
    secret always yields the first, without any request. *)
Theorem error_reply_kinds now fetch req e :
  payload (handler now fetch req) = Failure e →
  let b := default empty_body req in
  let request :=
    if truthy (setup_test b) then setup_request b
    else sync_request StringToNumber b now in
  (missing_secret b = true
   ∧ handler now fetch req = configuration_error
   ∧ errorType e = "ConfigurationError")
  ∨ (missing_secret b = false
     ∧ ∃ resp, fetch request = Return resp ∧ ok resp = false
               ∧ errorType e = "PlausibleAPIError")
  ∨ (missing_secret b = false
     ∧ ∃ err, (fetch request = Throw err
               ∨ ∃ resp, fetch request = Return resp ∧ ok resp = true
                         ∧ json resp = Throw err)
              ∧ errorType e = caught_type err).
Proof.
  intros Hfail b request. subst b request. revert Hfail.
  unfold syncWithPlausible, missing_secret, setup_request, sync_request.
  set (b := default empty_body req).
  destruct (negb (truthy (get (secrets b) "plausibleApiKey"))
            || negb (truthy (get (secrets b) "siteId"))) eqn:Hsecrets; simpl.
  { intros [= <-]. by left. }
  right. revert Hfail.
  destruct (truthy (setup_test b)); simpl.
  - destruct (fetch _) as [resp|err]; simpl.
    + destruct (ok resp) eqn:Hok; simpl; [done|].
      intros [= <-]. left. split; [done|]. by exists resp.
    + intros [= <-]. right. split; [done|]. exists err. by split; [left|].
  - destruct (fetch _) as [resp|err]; simpl.
    + destruct (ok resp) eqn:Hok; simpl.
      * destruct (json resp) as [data|err] eqn:Hjson; simpl; [done|].
        intros [= <-]. right. split; [done|]. exists err.
        split; [right; by exists resp|done].
      * intros [= <-]. left. split; [done|]. by exists resp.
    + intros [= <-]. right. split; [done|]. exists err. by split; [left|].
Qed.

End ReplyFacts.

(** ** Worked invocations *)

Module Runs.
Import Sample.

Local Abbreviation run := (syncWithPlausible StringToNumber moment_tz_toISOString now).

(** A sample sync answered by [serves data] is a fetched page. *)
Lemma serves_fetched_page st data :
  fetched_page StringToNumber now (serves data) (sync_body st) data.
Proof.
  split; [reflexivity|]. split; [reflexivity|].
  eexists. split; [reflexivity|]. split; reflexivity.
Defined.

(** The boundary [total_rows = offset + PAGE_SIZE]: first page of a window
    holding exactly one page. *)
Lemma hasMore_strict_threshold_boundary :
  ∃ out, run (serves (page two_hours (total 1000))) (Some (sync_body (Some ∅)))
           = {| code := 200; payload := Success out |}
         ∧ out_hasMore out =
             gt StringToNumber (VInt 1000)
               (add_const StringToNumber
                  (offset_of (request_body
                     (sync_request StringToNumber (sync_body (Some ∅)) now)))
                  PAGE_SIZE)
         ∧ ∀ o : Z,
             offset_of (request_body
               (sync_request StringToNumber (sync_body (Some ∅)) now)) = VInt o →
             out_hasMore out = bool_decide (1000 > o + PAGE_SIZE)
             ∧ (1000 = o + PAGE_SIZE → out_hasMore out = false).
Proof.
  apply (hasMore_strict_threshold StringToNumber moment_tz_toISOString now
           (serves (page two_hours (total 1000))) (sync_body (Some ∅))
           (page two_hours (total 1000)) 1000);
    [apply serves_fetched_page|reflexivity].
Defined.

Example boundary_page_hasMore :
  out_hasMore <$> reply_output
    (run (serves (page two_hours (total 1000))) (Some (sync_body (Some ∅))))
  = Some false.
Proof. reflexivity. Qed.

(** Second page of a window of 2500 rows: the state came in with
    [lastOffset = 0], the request asked for offset 1000. *)
Lemma more_rows_keep_window_second_page :
  ∃ out, run (serves (page two_hours (total 2500)))
             (Some (sync_body (Some {[ "lastOffset" := VInt 0 ]})))
           = {| code := 200; payload := Success out |}
         ∧ out_hasMore out = true
         ∧ out_state out !! "lastOffset" = Some (VInt 1000)
         ∧ out_state out !! "lastDateTime"
           = default ∅ (state (sync_body (Some {[ "lastOffset" := VInt 0 ]}))) !! "lastDateTime"
         ∧ ∀ k, k ≠ "lastOffset" →
                out_state out !! k
                = default ∅ (state (sync_body (Some {[ "lastOffset" := VInt 0 ]}))) !! k.
Proof.
  apply (more_rows_keep_window StringToNumber moment_tz_toISOString now
           (serves (page two_hours (total 2500)))
           (sync_body (Some {[ "lastOffset" := VInt 0 ]}))
           (page two_hours (total 2500)) 2500 1000);
    [apply serves_fetched_page|reflexivity|reflexivity|reflexivity].
Defined.

(** Third and last page of the same window. *)
Lemma last_page_commits_watermark_third_page :
  ∃ out m, run (serves (page two_hours (total 2500)))
               (Some (sync_body (Some {[ "lastOffset" := VInt 1000 ]})))
             = {| code := 200; payload := Success out |}
           ∧ out_hasMore out = false
           ∧ out_state out !! "lastDateTime" = Some (VString m)
           ∧ m ∈ timestamp <$> insert out !!! "plausible_timeseries"
           ∧ (∀ ts, ts ∈ timestamp <$> insert out !!! "plausible_timeseries" →
                    String.leb ts m = true)
           ∧ out_state out !! "lastOffset" = None.
Proof.
  apply (last_page_commits_watermark StringToNumber moment_tz_toISOString now
           (serves (page two_hours (total 2500)))
           (sync_body (Some {[ "lastOffset" := VInt 1000 ]}))
           (page two_hours (total 2500)) 2500 2000);
    [apply serves_fetched_page|reflexivity|reflexivity|discriminate|discriminate].
Defined.

Example third_page_watermark :
  out_state <$> reply_output
    (run (serves (page two_hours (total 2500)))
         (Some (sync_body (Some {[ "lastOffset" := VInt 1000 ]}))))
  = Some {[ "lastDateTime" := VString "2024-01-02 05:00:00.000Z" ]}.
Proof. reflexivity. Qed.

(** A state with [lastOffset = 0]: the request asks for offset 1000. *)
Lemma offset_from_lastOffset_zero :
  offset_of (request_body
    (sync_request StringToNumber (sync_body (Some {[ "lastOffset" := VInt 0 ]})) now))
  = VInt (0 + PAGE_SIZE)
  ∧ (Some 0 = Some 0 →
     offset_of (request_body
       (sync_request StringToNumber (sync_body (Some {[ "lastOffset" := VInt 0 ]})) now))
     = VInt PAGE_SIZE).
Proof.
  apply (offset_from_lastOffset StringToNumber
           (sync_body (Some {[ "lastOffset" := VInt 0 ]})) now (Some 0)).
  reflexivity.
Defined.

(** A state with a watermark: the window runs from it to [now]. *)
Lemma range_from_lastDateTime_resumed :
  date_range_of (request_body
    (sync_request StringToNumber
       (sync_body (Some {[ "lastDateTime" := VString "2024-01-01T00:00:00Z" ]})) now))
  = Between (VString "2024-01-01T00:00:00Z") now.
Proof.
  apply (range_from_lastDateTime StringToNumber
           (sync_body (Some {[ "lastDateTime" := VString "2024-01-01T00:00:00Z" ]}))
           now (Some "2024-01-01T00:00:00Z"));
    [reflexivity|discriminate].
Defined.

Example range_first_sync :
  date_range_of (request_body (sync_request StringToNumber (sync_body (Some ∅)) now)) = All
  ∧ offset_of (request_body (sync_request StringToNumber (sync_body (Some ∅)) now)) = VInt 0.
Proof. split; reflexivity. Qed.

(** A state whose [lastDateTime] is the empty string and whose [lastOffset]
    is [0]. *)
Lemma presence_tests_empty_string_and_zero :
  date_range_of (request_body
    (sync_request StringToNumber
       (sync_body (Some {[ "lastDateTime" := VString ""; "lastOffset" := VInt 0 ]})) now))
  = All
  ∧ offset_of (request_body
      (sync_request StringToNumber
         (sync_body (Some {[ "lastDateTime" := VString ""; "lastOffset" := VInt 0 ]})) now))
    = VInt PAGE_SIZE.
Proof.
  destruct (presence_tests StringToNumber
              (sync_body (Some {[ "lastDateTime" := VString ""; "lastOffset" := VInt 0 ]}))
              now) as (Hrange & Hfalsy & _ & Hoffset).
  split.
  - apply (Hrange (VString "")); [reflexivity|exact Hfalsy].
  - apply Hoffset. reflexivity.
Defined.

(** A connection test sent with a watermark in its state. *)
Lemma setup_test_echoes_state_resumed :
  ∃ out, run (serves (page [] None))
             (Some (probe_body (Some {[ "lastDateTime" := VString "2024-01-01T00:00:00Z" ]})))
           = {| code := 200; payload := Success out |}
         ∧ (∀ st, Some {[ "lastDateTime" := VString "2024-01-01T00:00:00Z" ]} = Some st →
                  out_state out = st)
         ∧ out_state out
           = default ∅ (Some {[ "lastDateTime" := VString "2024-01-01T00:00:00Z" ]})
         ∧ insert out = ∅
         ∧ schema out = None
         ∧ out_hasMore out = false.
Proof.
  apply (setup_test_echoes_state StringToNumber moment_tz_toISOString now
           (serves (page [] None))
           (probe_body (Some {[ "lastDateTime" := VString "2024-01-01T00:00:00Z" ]}))
           {| ok := true; status := 200; text := ""; json := Return (page [] None) |});
    reflexivity.
Defined.

(** C7, counterexample. [total_rows] is missing and the page has two rows:
    the reply still has [hasMore = false], and it commits the watermark. *)
Lemma missing_total_rows_commits_watermark :
  get (meta (page two_hours None)) "total_rows" = VUndefined
  ∧ default [] (results (page two_hours None)) ≠ []
  ∧ out_hasMore <$> reply_output
      (run (serves (page two_hours None)) (Some (sync_body (Some ∅))))
    = Some false
  ∧ out_state <$> reply_output
      (run (serves (page two_hours None)) (Some (sync_body (Some ∅))))
    = Some {[ "lastDateTime" := VString "2024-01-02 05:00:00.000Z" ]}.
Proof. split_and!; [reflexivity|discriminate|reflexivity|reflexivity]. Qed.

(** The same reply, read through the general statement. *)
Lemma missing_total_rows_ends_window_two_rows :
  ∃ out, run (serves (page two_hours None)) (Some (sync_body (Some ∅)))
           = {| code := 200; payload := Success out |}
         ∧ out_hasMore out = false
         ∧ (default [] (results (page two_hours None)) = [] →
            out_state out = default ∅ (state (sync_body (Some ∅))))
         ∧ (default [] (results (page two_hours None)) ≠ [] →
            ∃ m, out_state out !! "lastDateTime" = Some (VString m)
                 ∧ m ∈ timestamp <$> insert out !!! "plausible_timeseries"
                 ∧ (∀ ts, ts ∈ timestamp <$> insert out !!! "plausible_timeseries" →
                          String.leb ts m = true)
                 ∧ out_state out !! "lastOffset" = None).
Proof.
  apply (missing_total_rows_ends_window StringToNumber moment_tz_toISOString now
           (serves (page two_hours None)) (sync_body (Some ∅))
           (page two_hours None) 0);
    [apply serves_fetched_page|reflexivity|reflexivity].
Defined.

(** C8, counterexample. The upstream answers 503: the reply's [errorType] is
    ["PlausibleAPIError"], which is none of the three documented kinds. *)
Lemma upstream_failure_type_undocumented :
  payload (run (refuses 503 "Service Unavailable") (Some (sync_body (Some ∅))))
  = Failure {| errorMessage := "Plausible API request failed (status=503)";
               errorType := "PlausibleAPIError";
               stackTrace := Some ["Service Unavailable"] |}
  ∧ "PlausibleAPIError" ∉ documented_error_types.
Proof.
  split; [reflexivity|].
  unfold documented_error_types. rewrite !elem_of_cons, elem_of_nil.
  intros [?|[?|[?|[]]]]; discriminate.
Qed.

(** An unreachable upstream: the reply carries the name of the thrown error,
    not ["RuntimeError"]. *)
Example unreachable_upstream_type :
  payload (run unreachable (Some (sync_body (Some ∅))))
  = Failure {| errorMessage := "fetch failed";
               errorType := "TypeError";
               stackTrace := Some [] |}.
Proof. reflexivity. Qed.

(** The cause of the reply to an unreachable upstream: a thrown error. *)
Lemma error_reply_kinds_unreachable :
  let b := default empty_body (Some (sync_body (Some ∅))) in
  let request :=
    if truthy (setup_test b) then setup_request b
    else sync_request StringToNumber b now in
  (missing_secret b = true
   ∧ run unreachable (Some (sync_body (Some ∅))) = configuration_error
   ∧ errorType {| errorMessage := "fetch failed"; errorType := "TypeError";
                  stackTrace := Some [] |} = "ConfigurationError")
  ∨ (missing_secret b = false
     ∧ ∃ resp, unreachable request = Return resp ∧ ok resp = false
               ∧ errorType {| errorMessage := "fetch failed"; errorType := "TypeError";
                              stackTrace := Some [] |} = "PlausibleAPIError")
  ∨ (missing_secret b = false
     ∧ ∃ err, (unreachable request = Throw err
               ∨ ∃ resp, unreachable request = Return resp ∧ ok resp = true
                         ∧ json resp = Throw err)
              ∧ errorType {| errorMessage := "fetch failed"; errorType := "TypeError";
                             stackTrace := Some [] |} = caught_type err).
Proof.
  apply (error_reply_kinds StringToNumber moment_tz_toISOString now unreachable
           (Some (sync_body (Some ∅)))
           {| errorMessage := "fetch failed"; errorType := "TypeError";
              stackTrace := Some [] |}).
  reflexivity.
Defined.

(** C6, the run that breaks the invariant. A first page of a window
    reported as 1500 rows leaves [lastOffset = 0] in the state; the next
    call asks for offset 1000, and the upstream now reports 1000 rows and
    returns none. The reply has [hasMore = false], yet [lastOffset] is
    still in the state, and the first request of the next sync starts at
    offset 1000. *)
Lemma stale_lastOffset_after_empty_page :
  (out_hasMore <$> reply_output
     (run (serves (page full_page (total 1500))) (Some (sync_body (Some ∅))))
   = Some true
   ∧ out_state <$> reply_output
       (run (serves (page full_page (total 1500))) (Some (sync_body (Some ∅))))
     = Some {[ "lastOffset" := VInt 0 ]})
  ∧ run (serves (page [] (total 1000)))
        (Some (sync_body (Some {[ "lastOffset" := VInt 0 ]})))
    = {| code := 200;
         payload := Success
           {| out_state := {[ "lastOffset" := VInt 0 ]};
              insert := {[ "plausible_timeseries" := [] ]};
              schema := Some {[ "plausible_timeseries" := ["timestamp"] ]};
              out_hasMore := false |} |}
  ∧ offset_of (request_body
      (sync_request StringToNumber
         (sync_body (Some {[ "lastOffset" := VInt 0 ]})) now))
    = VInt 1000.
Proof. split_and!; reflexivity. Qed.

End Runs.

(** * Further properties of the handler *)

(** ** Replies that are not a page of rows *)

Section FailureFacts.
Variable StringToNumber : string → number.
Variable moment_tz_toISOString : string → string → string → string.

Local Abbreviation handler := (syncWithPlausible StringToNumber moment_tz_toISOString).
Local Abbreviation issued := (issued_request StringToNumber).

(** X1. When [plausibleApiKey] or [siteId] is missing or falsy (also when
    the request has no body at all), the reply is the 400
    ["ConfigurationError"], whatever the upstream would answer and whether
    or not the call is a connection test. *)
Theorem missing_secret_no_request now fetch req :
  missing_secret (default empty_body req) = true →
  handler now fetch req = configuration_error
  ∧ code (handler now fetch req) = 400
  ∧ ∀ fetch', handler now fetch' req = handler now fetch req.
Proof.
  intros Hmissing.
  assert (∀ f, handler now f req = configuration_error) as Hall.
  { intros f. unfold syncWithPlausible, missing_secret in *.
    simpl. by rewrite Hmissing. }
  split_and!; [done|by rewrite Hall|].
  intros fetch'. by rewrite !Hall.
Qed.

(** X2. The reply depends on the upstream only through its answer to one
    request: two upstreams that answer the issued request alike get the
    same reply. *)
Theorem one_request_decides now fetch fetch' req :
  fetch (issued (default empty_body req) now)
  = fetch' (issued (default empty_body req) now) →
  handler now fetch req = handler now fetch' req.
Proof.
  unfold issued_request, syncWithPlausible, setup_request, sync_request.
  set (b := default empty_body req).
  destruct (negb (truthy (get (secrets b) "plausibleApiKey"))
            || negb (truthy (get (secrets b) "siteId"))); simpl; [done|].
  destruct (truthy (setup_test b)); simpl; by intros ->.
Qed.

(** X3. With both secrets present, a failure status from the upstream gives
    a 500 reply of type ["PlausibleAPIError"] whose message carries the
    status and whose [stackTrace] is the response text, in a connection
    test and in a sync alike. *)
Theorem upstream_failure_reply now fetch req resp :
  missing_secret (default empty_body req) = false →
  fetch (issued (default empty_body req) now) = Return resp →
  ok resp = false →
  handler now fetch req =
    {| code := 500;
       payload := Failure
         {| errorMessage :=
              "Plausible API request failed (status=" +:+ pretty (status resp) +:+ ")";
            errorType := "PlausibleAPIError";
            stackTrace := Some [text resp] |} |}.
Proof.
  unfold issued_request, syncWithPlausible, missing_secret, setup_request,
    sync_request.
  set (b := default empty_body req). intros -> Hfetch Hok. simpl.
  destruct (truthy (setup_test b)); simpl; rewrite Hfetch; simpl;
    by rewrite Hok.
Qed.

(** X4. With both secrets present, an error thrown by [fetch] (in either
    mode) or by [response.json()] (in a sync) gives the 500 reply of the
    [catch] block: [errorMessage] is the error's message (or its string
    form when the message is empty) and [errorType] its name (or
    ["RuntimeError"]). The inner and the outer [catch] answer alike. *)
Theorem thrown_error_reply now fetch req err :
  missing_secret (default empty_body req) = false →
  fetch (issued (default empty_body req) now) = Throw err
  ∨ (truthy (setup_test (default empty_body req)) = false
     ∧ ∃ resp, fetch (issued (default empty_body req) now) = Return resp
               ∧ ok resp = true ∧ json resp = Throw err) →
  handler now fetch req = caught err
  ∧ code (handler now fetch req) = 500
  ∧ ∃ e, payload (handler now fetch req) = Failure e
         ∧ errorMessage e
           = (if String.eqb (message err) "" then error_to_string err else message err)
         ∧ errorType e = caught_type err.
Proof.
  intros Hsecrets Hthrown.
  assert (handler now fetch req = caught err) as ->.
  { revert Hsecrets Hthrown.
    unfold issued_request, syncWithPlausible, missing_secret, setup_request,
      sync_request.
    set (b := default empty_body req). intros -> [Hfetch|(Hsync & resp & Hfetch & Hok & Hjson)].
    - simpl. destruct (truthy (setup_test b)); simpl; by rewrite Hfetch.
    - simpl. rewrite Hsync in *. simpl. rewrite Hfetch. simpl.
      by rewrite Hok, Hjson. }
  split_and!; [done|done|]. by eexists.
Qed.

(** X5. The HTTP status follows the payload: 200 exactly for a success
    payload, 400 for the error reply of a missing secret, 500 for every
    other error reply. *)
Theorem reply_code now fetch req :
  code (handler now fetch req) =
    match payload (handler now fetch req) with
    | Success _ => 200
    | Failure _ => if missing_secret (default empty_body req) then 400 else 500
    end.
Proof.
  unfold syncWithPlausible, missing_secret.
  set (b := default empty_body req).
  destruct (negb (truthy (get (secrets b) "plausibleApiKey"))
            || negb (truthy (get (secrets b) "siteId"))); simpl; [done|].
  destruct (truthy (setup_test b)); simpl.
  - destruct (fetch _) as [resp|err]; simpl; [|done].
    by destruct (ok resp).
  - destruct (fetch _) as [resp|err]; simpl; [|done].
    destruct (ok resp); simpl; [|done].
    by destruct (json resp).
Qed.

End FailureFacts.

(** ** Pages of rows and the state handed back *)

Section PageFacts.
Variable StringToNumber : string → number.
Variable moment_tz_toISOString : string → string → string → string.

Local Abbreviation handler := (syncWithPlausible StringToNumber moment_tz_toISOString).
Local Abbreviation request := (sync_request StringToNumber).

Lemma get_default_empty st k :
  default VUndefined (default ∅ st !! k) = get st k.
Proof. destruct st; simpl; [done|]. by rewrite lookup_empty. Qed.

Lemma add_const_not_null v k :
  loose_eq_null (add_const StringToNumber v k) = false.
Proof. by destruct v. Qed.

Lemma offset_not_null st : loose_eq_null (offset StringToNumber st) = false.
Proof.
  unfold offset. destruct (loose_eq_null (get st "lastOffset")); [done|].
  apply add_const_not_null.
Qed.

Lemma newState_other_keys st off rws more k :
  k ≠ "lastOffset" → k ≠ "lastDateTime" →
  newState st off rws more !! k = default ∅ st !! k.
Proof.
  intros Hoff Hdate. unfold newState.
  destruct more; [by rewrite lookup_insert_ne|].
  destruct (0 <? length rws)%nat; [|done].
  destruct (maxDateTime rws); [|done].
  by rewrite lookup_delete_ne, lookup_insert_ne.
Qed.

Lemma maxDateTime_Permutation rws rws' :
  rws ≡ₚ rws' → maxDateTime rws = maxDateTime rws'.
Proof.
  intros Hperm.
  destruct (maxDateTime rws) as [m|] eqn:Hm, (maxDateTime rws') as [m'|] eqn:Hm'.
  - apply maxDateTime_greatest in Hm as [Hin Hle].
    apply maxDateTime_greatest in Hm' as [Hin' Hle'].
    f_equal. apply String.leb_antisym.
    + apply Hle'. by rewrite <- Hperm.
    + apply Hle. by rewrite Hperm.
  - exfalso. unfold maxDateTime, sortedByDate in Hm, Hm'.
    apply fmap_None, last_None in Hm'.
    assert (rws' = []) as ->.
    { apply length_zero_iff_nil.
      by rewrite <- (sort_length (λ a c, localeCompare (timestamp a) (timestamp c))), Hm'. }
    apply Permutation_nil_r in Hperm as ->. done.
  - exfalso. unfold maxDateTime, sortedByDate in Hm, Hm'.
    apply fmap_None, last_None in Hm.
    assert (rws = []) as ->.
    { apply length_zero_iff_nil.
      by rewrite <- (sort_length (λ a c, localeCompare (timestamp a) (timestamp c))), Hm. }
    symmetry in Hperm. apply Permutation_nil_r in Hperm as ->. done.
  - done.
Qed.

Lemma sync_output_table st off totalRows rws :
  insert (sync_output StringToNumber st off totalRows rws) !!! "plausible_timeseries"
  = rws.
Proof. simpl. apply lookup_total_singleton_eq. Qed.

(** X6. A fetched page is answered with one row per upstream result, in the
    upstream's order: the row's timestamp is the converted hour bucket and
    its measures are read by position from
    [[visitors, visits, pageviews, bounce_rate, visit_duration]] (a missing
    position reads as [undefined]). [insert] holds this one table and
    [schema] names [timestamp] as its primary key. *)
Theorem reply_rows now fetch b data :
  fetched_page StringToNumber now fetch b data →
  ∃ out, handler now fetch (Some b) = {| code := 200; payload := Success out |}
    ∧ length (insert out !!! "plausible_timeseries")
      = length (default [] (results data))
    ∧ (∀ (i : nat) r, default [] (results data) !! i = Some r →
         ∃ rw, (insert out !!! "plausible_timeseries") !! i = Some rw
           ∧ timestamp rw = moment_tz_toISOString (result_dimension r)
                              "YYYY-MM-DD HH:mm" "Europe/Berlin"
           ∧ visitors rw = default VUndefined (result_metrics r !! 0%nat)
           ∧ visits rw = default VUndefined (result_metrics r !! 1%nat)
           ∧ pageviews rw = default VUndefined (result_metrics r !! 2%nat)
           ∧ bounce_rate rw = default VUndefined (result_metrics r !! 3%nat)
           ∧ visit_duration rw = default VUndefined (result_metrics r !! 4%nat))
    ∧ (∀ table, table ≠ "plausible_timeseries" → insert out !! table = None)
    ∧ schema out = Some {[ "plausible_timeseries" := ["timestamp"] ]}.
Proof.
  intros Hpage. eexists. split; [by apply syncWithPlausible_fetched|].
  rewrite sync_output_table. unfold rows. split_and!.
  - apply length_fmap.
  - intros i r Hr. exists (to_row moment_tz_toISOString r).
    rewrite list_lookup_fmap, Hr. done.
  - intros table Htable. simpl. by rewrite lookup_singleton_ne.
  - done.
Qed.

(** X7. A page without rows (an empty or a missing [results]) never moves
    the watermark: when no more rows are announced the incoming state is
    handed back unchanged, otherwise only [lastOffset] is written. *)
Theorem empty_page_keeps_watermark now fetch b data :
  fetched_page StringToNumber now fetch b data →
  default [] (results data) = [] →
  ∃ out, handler now fetch (Some b) = {| code := 200; payload := Success out |}
    ∧ insert out !!! "plausible_timeseries" = []
    ∧ (out_hasMore out = false → out_state out = default ∅ (state b))
    ∧ out_state out !! "lastDateTime" = default ∅ (state b) !! "lastDateTime".
Proof.
  intros Hpage Hempty. eexists. split; [by apply syncWithPlausible_fetched|].
  simpl. rewrite lookup_total_singleton, Hempty. unfold newState. simpl.
  split_and!; [done|by intros ->|].
  destruct (hasMore _ _ _); [by rewrite lookup_insert_ne|done].
Qed.

(** X8. Keys of the incoming state other than [lastOffset] and
    [lastDateTime] are handed back untouched by every successful sync. *)
Theorem other_keys_carried now fetch b data k :
  fetched_page StringToNumber now fetch b data →
  k ≠ "lastOffset" → k ≠ "lastDateTime" →
  ∃ out, handler now fetch (Some b) = {| code := 200; payload := Success out |}
    ∧ out_state out !! k = default ∅ (state b) !! k.
Proof.
  intros Hpage Hoff Hdate. eexists.
  split; [by apply syncWithPlausible_fetched|].
  simpl. by apply newState_other_keys.
Qed.

(** X9. Continuation composes: when a reply says [hasMore], the call that
    sends its state back asks for the next page (the previous offset plus
    [PAGE_SIZE]) of a window with the same start. *)
Theorem continuation_requests_next_page now now' fetch b data out :
  fetched_page StringToNumber now fetch b data →
  handler now fetch (Some b) = {| code := 200; payload := Success out |} →
  out_hasMore out = true →
  offset_of (request_body (request (next_call b (out_state out)) now'))
  = add_const StringToNumber (offset_of (request_body (request b now))) PAGE_SIZE
  ∧ (∀ o : Z, offset_of (request_body (request b now)) = VInt o →
       offset_of (request_body (request (next_call b (out_state out)) now'))
       = VInt (o + PAGE_SIZE))
  ∧ date_range_of (request_body (request (next_call b (out_state out)) now'))
    = date_range_of (request_body (request b now'))
  ∧ site_id (request_body (request (next_call b (out_state out)) now'))
    = site_id (request_body (request b now)).
Proof.
  intros Hpage Hreply Hmore.
  rewrite (syncWithPlausible_fetched _ _ _ _ _ _ Hpage) in Hreply.
  injection Hreply as <-. simpl in *.
  unfold newState. rewrite Hmore.
  assert (offset StringToNumber
            (Some (<["lastOffset" := offset StringToNumber (state b)]> (default ∅ (state b))))
          = add_const StringToNumber (offset StringToNumber (state b)) PAGE_SIZE) as Hnext.
  { unfold offset at 1. simpl. rewrite lookup_insert_eq. simpl.
    by rewrite offset_not_null. }
  split_and!; [done| |  |done].
  - intros o Ho. by rewrite Hnext, Ho.
  - unfold range. simpl. rewrite lookup_insert_ne by done.
    by rewrite get_default_empty.
Qed.

(** X10. A finished window composes with the next sync: when a reply for a
    page with rows says no more, the call that sends its state back asks
    for offset [0] of the window that starts at the new watermark. *)
Theorem finished_window_starts_next now now' fetch b data out :
  fetched_page StringToNumber now fetch b data →
  handler now fetch (Some b) = {| code := 200; payload := Success out |} →
  out_hasMore out = false →
  default [] (results data) ≠ [] →
  ∃ m, out_state out !! "lastDateTime" = Some (VString m)
    ∧ offset_of (request_body (request (next_call b (out_state out)) now')) = VInt 0
    ∧ date_range_of (request_body (request (next_call b (out_state out)) now'))
      = if String.eqb m "" then All else Between (VString m) now'.
Proof.
  intros Hpage Hreply Hmore Hrows.
  rewrite (syncWithPlausible_fetched _ _ _ _ _ _ Hpage) in Hreply.
  injection Hreply as <-. simpl in Hmore.
  destruct (hasMore_false_sync_output StringToNumber (state b)
              (offset StringToNumber (state b)) (get (meta data) "total_rows")
              (rows moment_tz_toISOString (default [] (results data))) Hmore)
    as (m & _ & ->).
  { unfold rows. by destruct (default [] (results data)). }
  exists m. simpl. split_and!.
  - by rewrite lookup_delete_ne, lookup_insert_eq.
  - unfold offset. simpl. by rewrite lookup_delete_eq.
  - unfold range. simpl. rewrite lookup_delete_ne, lookup_insert_eq by done.
    simpl. by destruct (String.eqb m "").
Qed.

(** X11. The state handed back does not depend on the order in which the
    upstream lists the rows of the page: two pages with the same rows in
    any order and the same [meta] give the same state and [hasMore]. *)
Theorem state_ignores_row_order now fetch fetch' b data data' :
  fetched_page StringToNumber now fetch b data →
  fetched_page StringToNumber now fetch' b data' →
  default [] (results data) ≡ₚ default [] (results data') →
  meta data = meta data' →
  ∃ out out',
    handler now fetch (Some b) = {| code := 200; payload := Success out |}
    ∧ handler now fetch' (Some b) = {| code := 200; payload := Success out' |}
    ∧ out_state out = out_state out'
    ∧ out_hasMore out = out_hasMore out'.
Proof.
  intros Hpage Hpage' Hperm Hmeta.
  eexists _, _.
  split; [by apply syncWithPlausible_fetched|].
  split; [by apply syncWithPlausible_fetched|].
  simpl. rewrite Hmeta. split; [|done].
  unfold newState. destruct (hasMore _ _ _); [done|].
  assert (rows moment_tz_toISOString (default [] (results data))
          ≡ₚ rows moment_tz_toISOString (default [] (results data'))) as Hrows
    by (unfold rows; by rewrite Hperm).
  by rewrite (maxDateTime_Permutation _ _ Hrows), (Permutation_length Hrows).
Qed.

(** X12. A call without a [state] is answered as a call with the empty
    state [{}]. *)
Theorem absent_state_is_empty now fetch b :
  handler now fetch
    (Some {| state := None; secrets := secrets b; setup_test := setup_test b |})
  = handler now fetch
      (Some {| state := Some ∅; secrets := secrets b; setup_test := setup_test b |}).
Proof. reflexivity. Qed.

End PageFacts.

(** ** Runs of continuation calls *)

Section RunFacts.
Variable StringToNumber : string → number.
Variable moment_tz_toISOString : string → string → string → string.

Local Abbreviation handler := (syncWithPlausible StringToNumber moment_tz_toISOString).

Lemma continued_numeric st pages (o : Z) :
  offset StringToNumber st = VInt o →
  offset StringToNumber (continued StringToNumber st pages)
  = VInt (o + Z.of_nat (length pages) * PAGE_SIZE)
  ∧ get (continued StringToNumber st pages) "lastDateTime" = get st "lastDateTime".
Proof.
  revert st o. induction pages as [|rws pages IH]; intros st o Ho.
  - replace (o + Z.of_nat (length (@nil (list row))) * PAGE_SIZE) with o
      by (simpl; lia).
    done.
  - cbn [continued].
    replace (o + Z.of_nat (length (rws :: pages)) * PAGE_SIZE)
      with (o + PAGE_SIZE + Z.of_nat (length pages) * PAGE_SIZE)
      by (cbn [length]; lia).
    destruct (IH (Some (newState st (offset StringToNumber st) rws true))
                 (o + PAGE_SIZE)) as [-> ->].
    + unfold newState, offset at 1. simpl. rewrite lookup_insert_eq. simpl.
      by rewrite Ho.
    + split; [done|].
      unfold newState. simpl. rewrite lookup_insert_ne by done.
      apply get_default_empty.
Qed.

(** X14. Pagination neither skips nor repeats a page: from a state without
    [lastOffset], the request after [n] replies that said [hasMore] asks for
    offset [n * PAGE_SIZE], and the window start ([lastDateTime]) is the one
    the run began with. *)
Theorem continued_offsets st pages :
  loose_eq_null (get st "lastOffset") = true →
  offset StringToNumber (continued StringToNumber st pages)
  = VInt (Z.of_nat (length pages) * PAGE_SIZE)
  ∧ range (continued StringToNumber st pages) = range st.
Proof.
  intros Hnull.
  destruct (continued_numeric st pages 0) as [Hoff Hdate].
  { unfold offset. by rewrite Hnull. }
  split; [by rewrite Hoff|].
  unfold range. by rewrite Hdate.
Qed.

(** X15. A connection test reads neither the clock nor the state for what
    it sends: its request is the same whatever the state and the time, and
    its reply does not depend on the time. *)
Theorem setup_test_ignores_clock now now' fetch b st :
  truthy (setup_test b) = true →
  issued_request StringToNumber (next_call b st) now'
  = issued_request StringToNumber b now
  ∧ handler now' fetch (Some b) = handler now fetch (Some b).
Proof.
  intros Hsetup. unfold issued_request, syncWithPlausible. simpl.
  rewrite Hsetup. split; [done|].
  by destruct (negb _ || negb _).
Qed.

End RunFacts.

(** ** The stack trace of an error reply *)

Lemma split_not_nil sep s : split sep s ≠ [].
Proof.
  destruct s as [|c s]; simpl; [done|].
  destruct (Ascii.eqb c sep); [done|]. by destruct (split sep s).
Qed.

Lemma split_concat sep s :
  String.concat (String sep EmptyString) (split sep s) = s.
Proof.
  induction s as [|c s IH]; simpl; [done|].
  pose proof (split_not_nil sep s) as Hnil.
  destruct (Ascii.eqb_spec c sep) as [->|Hc].
  - destruct (split sep s) as [|piece pieces]; [done|].
    simpl in *. by rewrite IH.
  - destruct (split sep s) as [|piece pieces]; [done|].
    simpl in *. destruct pieces; by rewrite <- IH.
Qed.

Lemma split_pieces_free sep s piece :
  piece ∈ split sep s → sep ∉ list_ascii_of_string piece.
Proof.
  revert piece. induction s as [|c s IH]; simpl; intros piece.
  - intros ->%list_elem_of_singleton. simpl. apply not_elem_of_nil.
  - destruct (Ascii.eqb_spec c sep) as [->|Hc].
    + intros [->|Hin]%elem_of_cons; [apply not_elem_of_nil|by apply IH].
    + pose proof (split_not_nil sep s) as Hnil.
      destruct (split sep s) as [|first pieces]; [done|].
      intros [->|Hin]%elem_of_cons.
      * simpl. intros [?|Hfirst]%elem_of_cons; [done|].
        apply (IH first); [apply list_elem_of_here|done].
      * apply IH. by apply list_elem_of_further.
Qed.

(** X13. The [stackTrace] of a caught error is its stack cut at the line
    breaks: joining the lines with a line break gives the stack back, no
    line contains a line break, and the list is empty exactly when the
    error has no stack (or an empty one). *)
Theorem stack_trace_lines err :
  ∃ e lines,
    payload (caught err) = Failure e
    ∧ stackTrace e = Some lines
    ∧ String.concat (String newline EmptyString) lines = default "" (stack err)
    ∧ (∀ line, line ∈ lines → newline ∉ list_ascii_of_string line)
    ∧ (lines = [] ↔ default "" (stack err) = "").
Proof.
  unfold caught. eexists _, _. split; [done|]. split; [done|]. simpl.
  destruct (stack err) as [s|]; simpl.
  - destruct (String.eqb_spec s "") as [->|Hs]; simpl.
    + split_and!; [done|by intros line ?%not_elem_of_nil|done].
    + split_and!.
      * apply split_concat.
      * intros line. apply split_pieces_free.
      * split; [by intros ?%split_not_nil|done].
  - split_and!; [done|by intros line ?%not_elem_of_nil|done].
Qed.

(** ** Further worked invocations *)

Module MoreRuns.
Import Sample.

Local Abbreviation run := (syncWithPlausible StringToNumber moment_tz_toISOString now).
Local Abbreviation request := (sync_request StringToNumber).

Lemma served st data :
  fetched_page StringToNumber now (serves data) (sync_body st) data.
Proof.
  split; [reflexivity|]. split; [reflexivity|].
  eexists. split; [reflexivity|]. split; reflexivity.
Defined.

(** A request without a body. *)
Lemma missing_secret_no_request_no_body :
  run unreachable None = configuration_error
  ∧ code (run unreachable None) = 400
  ∧ ∀ fetch', run fetch' None = run unreachable None.
Proof.
  apply (missing_secret_no_request StringToNumber moment_tz_toISOString now
           unreachable None).
  reflexivity.
Defined.

(** Two upstreams that serve the same page. *)
Lemma one_request_decides_same_page :
  run (serves (page two_hours (total 2))) (Some (sync_body (Some ∅)))
  = run (λ _, serves (page two_hours (total 2))
                (FetchRequest VNull (setup_query VNull)))
        (Some (sync_body (Some ∅))).
Proof.
  apply (one_request_decides StringToNumber moment_tz_toISOString now
           (serves (page two_hours (total 2)))
           (λ _, serves (page two_hours (total 2))
                   (FetchRequest VNull (setup_query VNull)))
           (Some (sync_body (Some ∅)))).
  reflexivity.
Defined.

(** A connection test against an upstream that answers 401. *)
Lemma upstream_failure_reply_probe :
  run (refuses 401 "Unauthorized") (Some (probe_body None))
  = {| code := 500;
       payload := Failure
         {| errorMessage :=
              "Plausible API request failed (status="
              +:+ pretty (status {| ok := false; status := 401; text := "Unauthorized";
                                    json := Throw (Error "SyntaxError" "Unexpected token" None) |})
              +:+ ")";
            errorType := "PlausibleAPIError";
            stackTrace :=
              Some [text {| ok := false; status := 401; text := "Unauthorized";
                            json := Throw (Error "SyntaxError" "Unexpected token" None) |}] |} |}.
Proof.
  apply (upstream_failure_reply StringToNumber moment_tz_toISOString now
           (refuses 401 "Unauthorized") (Some (probe_body None)));
    reflexivity.
Defined.

(** A sync against an upstream that cannot be reached. *)
Lemma thrown_error_reply_unreachable :
  run unreachable (Some (sync_body None))
  = caught (Error "TypeError" "fetch failed" None)
  ∧ code (run unreachable (Some (sync_body None))) = 500
  ∧ ∃ e, payload (run unreachable (Some (sync_body None))) = Failure e
         ∧ errorMessage e
           = (if String.eqb (message (Error "TypeError" "fetch failed" None)) ""
              then error_to_string (Error "TypeError" "fetch failed" None)
              else message (Error "TypeError" "fetch failed" None))
         ∧ errorType e = caught_type (Error "TypeError" "fetch failed" None).
Proof.
  apply (thrown_error_reply StringToNumber moment_tz_toISOString now
           unreachable (Some (sync_body None))
           (Error "TypeError" "fetch failed" None));
    [reflexivity|left; reflexivity].
Defined.

(** A page of two rows. *)
Lemma reply_rows_two_hours :
  ∃ out, run (serves (page two_hours (total 2))) (Some (sync_body (Some ∅)))
           = {| code := 200; payload := Success out |}
    ∧ length (insert out !!! "plausible_timeseries")
      = length (default [] (results (page two_hours (total 2))))
    ∧ (∀ (i : nat) r, default [] (results (page two_hours (total 2))) !! i = Some r →
         ∃ rw, (insert out !!! "plausible_timeseries") !! i = Some rw
           ∧ timestamp rw = moment_tz_toISOString (result_dimension r)
                              "YYYY-MM-DD HH:mm" "Europe/Berlin"
           ∧ visitors rw = default VUndefined (result_metrics r !! 0%nat)
           ∧ visits rw = default VUndefined (result_metrics r !! 1%nat)
           ∧ pageviews rw = default VUndefined (result_metrics r !! 2%nat)
           ∧ bounce_rate rw = default VUndefined (result_metrics r !! 3%nat)
           ∧ visit_duration rw = default VUndefined (result_metrics r !! 4%nat))
    ∧ (∀ table, table ≠ "plausible_timeseries" → insert out !! table = None)
    ∧ schema out = Some {[ "plausible_timeseries" := ["timestamp"] ]}.
Proof.
  apply (reply_rows StringToNumber moment_tz_toISOString now
           (serves (page two_hours (total 2))) (sync_body (Some ∅))
           (page two_hours (total 2))).
  apply served.
Defined.

(** An upstream reply without [results]. *)
Lemma empty_page_keeps_watermark_no_results :
  ∃ out, run (serves {| results := None; meta := total 0 |})
             (Some (sync_body (Some {[ "lastDateTime" := VString "2024-01-01T00:00:00.000Z" ]})))
           = {| code := 200; payload := Success out |}
    ∧ insert out !!! "plausible_timeseries" = []
    ∧ (out_hasMore out = false →
       out_state out
       = default ∅ (state (sync_body
           (Some {[ "lastDateTime" := VString "2024-01-01T00:00:00.000Z" ]}))))
    ∧ out_state out !! "lastDateTime"
      = default ∅ (state (sync_body
          (Some {[ "lastDateTime" := VString "2024-01-01T00:00:00.000Z" ]})))
        !! "lastDateTime".
Proof.
  apply (empty_page_keeps_watermark StringToNumber moment_tz_toISOString now
           (serves {| results := None; meta := total 0 |})
           (sync_body (Some {[ "lastDateTime" := VString "2024-01-01T00:00:00.000Z" ]}))
           {| results := None; meta := total 0 |});
    [apply served|reflexivity].
Defined.

(** A state with a key of the caller's own. *)
Lemma other_keys_carried_cursor :
  ∃ out, run (serves (page two_hours (total 2)))
             (Some (sync_body (Some {[ "cursor" := VInt 7 ]})))
           = {| code := 200; payload := Success out |}
    ∧ out_state out !! "cursor"
      = default ∅ (state (sync_body (Some {[ "cursor" := VInt 7 ]}))) !! "cursor".
Proof.
  apply (other_keys_carried StringToNumber moment_tz_toISOString now
           (serves (page two_hours (total 2)))
           (sync_body (Some {[ "cursor" := VInt 7 ]}))
           (page two_hours (total 2)) "cursor");
    [apply served|discriminate|discriminate].
Defined.

(** First page of a window of 2500 rows, and the call that follows it. *)
Lemma continuation_requests_next_page_first :
  let out := sync_output StringToNumber (Some ∅) (VInt 0) (VInt 2500)
               (rows moment_tz_toISOString (hour <$> two_hours)) in
  offset_of (request_body (request (next_call (sync_body (Some ∅)) (out_state out)) now))
  = add_const StringToNumber
      (offset_of (request_body (request (sync_body (Some ∅)) now))) PAGE_SIZE
  ∧ (∀ o : Z, offset_of (request_body (request (sync_body (Some ∅)) now)) = VInt o →
       offset_of (request_body (request (next_call (sync_body (Some ∅)) (out_state out)) now))
       = VInt (o + PAGE_SIZE))
  ∧ date_range_of (request_body (request (next_call (sync_body (Some ∅)) (out_state out)) now))
    = date_range_of (request_body (request (sync_body (Some ∅)) now))
  ∧ site_id (request_body (request (next_call (sync_body (Some ∅)) (out_state out)) now))
    = site_id (request_body (request (sync_body (Some ∅)) now)).
Proof.
  apply (continuation_requests_next_page StringToNumber moment_tz_toISOString now now
           (serves (page two_hours (total 2500))) (sync_body (Some ∅))
           (page two_hours (total 2500))
           (sync_output StringToNumber (Some ∅) (VInt 0) (VInt 2500)
              (rows moment_tz_toISOString (hour <$> two_hours))));
    [apply served|reflexivity|reflexivity].
Defined.

Example second_request_offset :
  offset_of (request_body (request
    (next_call (sync_body (Some ∅))
       (out_state (sync_output StringToNumber (Some ∅) (VInt 0) (VInt 2500)
                     (rows moment_tz_toISOString (hour <$> two_hours))))) now))
  = VInt 1000.
Proof. reflexivity. Qed.

(** Only page of a window of two rows, and the sync that follows it. *)
Lemma finished_window_starts_next_two_hours :
  ∃ m, out_state (sync_output StringToNumber (Some ∅) (VInt 0) (VInt 2)
                    (rows moment_tz_toISOString (hour <$> two_hours)))
       !! "lastDateTime" = Some (VString m)
    ∧ offset_of (request_body (request
        (next_call (sync_body (Some ∅))
           (out_state (sync_output StringToNumber (Some ∅) (VInt 0) (VInt 2)
                         (rows moment_tz_toISOString (hour <$> two_hours))))) now))
      = VInt 0
    ∧ date_range_of (request_body (request
        (next_call (sync_body (Some ∅))
           (out_state (sync_output StringToNumber (Some ∅) (VInt 0) (VInt 2)
                         (rows moment_tz_toISOString (hour <$> two_hours))))) now))
      = if String.eqb m "" then All else Between (VString m) now.
Proof.
  apply (finished_window_starts_next StringToNumber moment_tz_toISOString now now
           (serves (page two_hours (total 2))) (sync_body (Some ∅))
           (page two_hours (total 2))
           (sync_output StringToNumber (Some ∅) (VInt 0) (VInt 2)
              (rows moment_tz_toISOString (hour <$> two_hours))));
    [apply served|reflexivity|reflexivity|discriminate].
Defined.

(** The same two rows, newest first and oldest first. *)
Lemma state_ignores_row_order_two_hours :
  ∃ out out',
    run (serves (page two_hours (total 2))) (Some (sync_body (Some ∅)))
    = {| code := 200; payload := Success out |}
    ∧ run (serves (page two_hours_ascending (total 2))) (Some (sync_body (Some ∅)))
      = {| code := 200; payload := Success out' |}
    ∧ out_state out = out_state out'
    ∧ out_hasMore out = out_hasMore out'.
Proof.
  apply (state_ignores_row_order StringToNumber moment_tz_toISOString now
           (serves (page two_hours (total 2)))
           (serves (page two_hours_ascending (total 2)))
           (sync_body (Some ∅))
           (page two_hours (total 2)) (page two_hours_ascending (total 2)));
    [apply served|apply served|apply perm_swap|reflexivity].
Defined.

(** Three pages read from an empty state. *)
Lemma continued_offsets_three_pages :
  offset StringToNumber (continued StringToNumber (Some ∅) [[]; []; []])
  = VInt (Z.of_nat (length ([[]; []; []] : list (list row))) * PAGE_SIZE)
  ∧ range (continued StringToNumber (Some ∅) [[]; []; []]) = range (Some ∅).
Proof.
  apply (continued_offsets StringToNumber (Some ∅) [[]; []; []]).
  reflexivity.
Defined.

(** A connection test at two different times. *)
Lemma setup_test_ignores_clock_resumed :
  issued_request StringToNumber
    (next_call (probe_body None) {[ "lastOffset" := VInt 1000 ]})
    "2024-02-01T00:00:00.000Z"
  = issued_request StringToNumber (probe_body None) now
  ∧ syncWithPlausible StringToNumber moment_tz_toISOString
      "2024-02-01T00:00:00.000Z" unreachable (Some (probe_body None))
    = run unreachable (Some (probe_body None)).
Proof.
  apply (setup_test_ignores_clock StringToNumber moment_tz_toISOString now
           "2024-02-01T00:00:00.000Z" unreachable (probe_body None)
           {[ "lastOffset" := VInt 1000 ]}).
  reflexivity.
Defined.

End MoreRuns.
